(** * SAFECLICK model-service adapter: [src/services/geminiService.ts]

    A shallow embedding of the two exported operations of the adapter,
    [analyzeThreatContent] and [getChatResponse], together with the parts
    of the JavaScript runtime they lean on ([String.prototype.split],
    [JSON.parse], truthiness, optional chaining, [await]).

    Conventions.
    - A JavaScript string is modelled by a Rocq [string] holding its UTF-8
      bytes.  All the literals of the source are ASCII.
    - [undefined] is [None]; an optional property is an [option].
    - The model service is outside the repository: a call of
      [ai.models.generateContent] is a node [Await] of the program tree
      [async], and the service is the function given to [run]. *)

From Stdlib Require Import String Ascii List ZArith Bool Lia.
Import ListNotations.

Local Open Scope string_scope.
Local Open Scope list_scope.

(** ** JavaScript strings *)

Module Js.

Definition dquote : ascii := "034"%char.
Definition nl : ascii := "010"%char.

(** [q s] is [s] between two double quotes. *)
Definition q (s : string) : string :=
  String dquote (s ++ String dquote EmptyString).

(** Writes a text with apostrophes where it has double quotes. *)
Fixpoint dq (s : string) : string :=
  match s with
  | EmptyString => EmptyString
  | String c r => String (if Ascii.eqb c "'"%char then dquote else c) (dq r)
  end.

(** [lines] joins the lines of a template literal with line feeds. *)
Fixpoint lines (l : list string) : string :=
  match l with
  | [] => EmptyString
  | [s] => s
  | s :: r => s ++ String nl (lines r)
  end.

(** Truthiness of a string value that may be [undefined]:
    [undefined] and the empty string are falsy, any other string is truthy. *)
Definition truthy (v : option string) : bool :=
  match v with
  | None => false
  | Some EmptyString => false
  | Some (String _ _) => true
  end.

(** [ToString]: what a built-in expecting a string makes of the value. *)
Definition ToString (v : option string) : string :=
  match v with
  | None => "undefined"
  | Some s => s
  end.

(** [s.split(sep)] for a separator of one character: the segments of [s]
    between the occurrences of [sep], in order; never an empty array. *)
Fixpoint split (sep : ascii) (s : string) : list string :=
  match s with
  | EmptyString => [EmptyString]
  | String c r =>
      if Ascii.eqb c sep then EmptyString :: split sep r
      else match split sep r with
           | seg :: segs => String c seg :: segs
           | [] => [String c EmptyString]
           end
  end.

(** [a[i]]: [undefined] when [i] is not an index of [a]. *)
Definition index {A : Type} (a : list A) (i : nat) : option A := nth_error a i.

(** [c] occurs in [s]. *)
Fixpoint occurs (c : ascii) (s : string) : bool :=
  match s with
  | EmptyString => false
  | String d r => Ascii.eqb d c || occurs c r
  end.

(** The text of [s] before the first [c] (all of [s] when there is none). *)
Fixpoint before_first (c : ascii) (s : string) : string :=
  match s with
  | EmptyString => EmptyString
  | String d r => if Ascii.eqb d c then EmptyString else String d (before_first c r)
  end.

(** The text of [s] after the first [c]; nothing when [c] does not occur. *)
Fixpoint after_first (c : ascii) (s : string) : option string :=
  match s with
  | EmptyString => None
  | String d r => if Ascii.eqb d c then Some r else after_first c r
  end.

End Js.

(** ** [JSON.parse]

    The built-in is a one-pass reader of the text: a lexer automaton feeds
    the tokens to a pushdown automaton whose stack holds the arrays and
    objects that are still open.  Both advance by one character, so the
    reader is total by recursion on the text; [None] is the [SyntaxError]
    of the built-in. *)

Module JSON.

(** A number literal keeps its exact decimal value
    [mantissa * 10 ^ exponent].  The rounding of JavaScript to the nearest
    double is not modelled; it is the identity on the integers below
    [2 ^ 53] in magnitude.  The sign of a zero is not kept. *)
Record number : Type := { mantissa : Z; exponent : Z }.

#[warnings="-register-all"]
Inductive json : Type :=
| Null
| Bool (b : bool)
| Number (n : number)
| Str (s : string)
| Array (elements : list json)
| Object (members : list (string * json)).

Definition int (z : Z) : json := Number {| mantissa := z; exponent := 0 |}.

(** [Some z] when the number is the integer [z]. *)
Definition as_integer (n : number) : option Z :=
  if (0 <=? exponent n)%Z then Some (mantissa n * 10 ^ exponent n)%Z
  else
    let d := (10 ^ (- exponent n))%Z in
    if (mantissa n mod d =? 0)%Z then Some (mantissa n / d)%Z else None.

(** Defining property [k] of an object: a new key goes last, a key already
    there keeps its place and takes the new value.  (That an object lists
    its integer-like keys first is not modelled.) *)
Fixpoint define (members : list (string * json)) (k : string) (v : json)
  : list (string * json) :=
  match members with
  | [] => [(k, v)]
  | (k', v') :: r =>
      if String.eqb k' k then (k, v) :: r else (k', v') :: define r k v
  end.

Fixpoint lookup (members : list (string * json)) (k : string) : option json :=
  match members with
  | [] => None
  | (k', v) :: r => if String.eqb k' k then Some v else lookup r k
  end.

(** [v.k] on a parsed value that is not [null]: [undefined] unless [v] is
    an object with the property. *)
Definition get (v : json) (k : string) : option json :=
  match v with
  | Object members => lookup members k
  | _ => None
  end.

(** *** Tokens *)

Inductive token : Type :=
| TLBrace | TRBrace | TLBracket | TRBracket | TColon | TComma
| TString (s : string) | TNumber (n : number)
| TTrue | TFalse | TNull.

Definition code (c : ascii) : N := N_of_ascii c.

Definition is_ws (c : ascii) : bool :=
  let n := code c in
  (n =? 32)%N || (n =? 9)%N || (n =? 10)%N || (n =? 13)%N.

Definition is_digit (c : ascii) : bool :=
  let n := code c in (48 <=? n)%N && (n <=? 57)%N.

Definition is_lower (c : ascii) : bool :=
  let n := code c in (97 <=? n)%N && (n <=? 122)%N.

(** The characters a number literal is made of. *)
Definition is_num_char (c : ascii) : bool :=
  is_digit c || Ascii.eqb c "-" || Ascii.eqb c "+" || Ascii.eqb c "."
  || Ascii.eqb c "e" || Ascii.eqb c "E".

Definition hex_val (c : ascii) : option N :=
  let n := code c in
  if (48 <=? n)%N && (n <=? 57)%N then Some (n - 48)%N
  else if (65 <=? n)%N && (n <=? 70)%N then Some (n - 55)%N
  else if (97 <=? n)%N && (n <=? 102)%N then Some (n - 87)%N
  else None.

Definition punct (c : ascii) : option token :=
  if Ascii.eqb c "{" then Some TLBrace
  else if Ascii.eqb c "}" then Some TRBrace
  else if Ascii.eqb c "[" then Some TLBracket
  else if Ascii.eqb c "]" then Some TRBracket
  else if Ascii.eqb c ":" then Some TColon
  else if Ascii.eqb c "," then Some TComma
  else None.

(** *** Literals *)

Definition word_token (w : list ascii) : option token :=
  let s := string_of_list_ascii w in
  if String.eqb s "true" then Some TTrue
  else if String.eqb s "false" then Some TFalse
  else if String.eqb s "null" then Some TNull
  else None.

Fixpoint take_digits (l : list ascii) : list ascii * list ascii :=
  match l with
  | c :: r =>
      if is_digit c then let (ds, rest) := take_digits r in (c :: ds, rest)
      else ([], l)
  | [] => ([], [])
  end.

Definition digits_value (ds : list ascii) : Z :=
  fold_left (fun acc d => (10 * acc + Z.of_N (code d - 48))%Z) ds 0%Z.

(** The integer part: one digit at least, no leading zero. *)
Definition int_part_ok (ds : list ascii) : bool :=
  match ds with
  | [] => false
  | [_] => true
  | c :: _ => negb (Ascii.eqb c "0")
  end.

(** [-? int (. digits+)? ((e|E) (+|-)? digits+)?] *)
Definition number_of_lexeme (l : list ascii) : option number :=
  let (neg, l1) :=
    match l with
    | c :: r => if Ascii.eqb c "-" then (true, r) else (false, l)
    | [] => (false, l)
    end in
  let (ip, l2) := take_digits l1 in
  if negb (int_part_ok ip) then None
  else
    let frac :=
      match l2 with
      | c :: r =>
          if Ascii.eqb c "." then
            let (fp, l3) := take_digits r in
            match fp with [] => None | _ => Some (fp, l3) end
          else Some ([], l2)
      | [] => Some ([], l2)
      end in
    match frac with
    | None => None
    | Some (fp, l3) =>
        let exp :=
          match l3 with
          | c :: r =>
              if Ascii.eqb c "e" || Ascii.eqb c "E" then
                let (sg, r1) :=
                  match r with
                  | s :: r' =>
                      if Ascii.eqb s "+" then (1%Z, r')
                      else if Ascii.eqb s "-" then ((-1)%Z, r')
                      else (1%Z, r)
                  | [] => (1%Z, r)
                  end in
                let (ep, l4) := take_digits r1 in
                match ep with
                | [] => None
                | _ => Some ((sg * digits_value ep)%Z, l4)
                end
              else Some (0%Z, l3)
          | [] => Some (0%Z, l3)
          end in
        match exp with
        | Some (e, []) =>
            let m := digits_value (ip ++ fp) in
            Some {| mantissa := if neg then (- m)%Z else m;
                    exponent := (e - Z.of_nat (length fp))%Z |}
        | _ => None
        end
    end.

Definition number_token (w : list ascii) : option token :=
  option_map TNumber (number_of_lexeme w).

(** *** String literals

    A unit of a string literal is a character copied from the text or the
    code unit of a [\uXXXX] escape.  At the closing quote the units become
    UTF-8 bytes: a high surrogate followed by a low one is one code point,
    any other escape is encoded on its own. *)

Inductive unit_ : Type :=
| Raw (c : ascii)
| Esc (cu : N).

Definition byte (n : N) : ascii := ascii_of_N n.

Definition utf8 (cp : N) : string :=
  if (cp <? 128)%N then String (byte cp) EmptyString
  else if (cp <? 2048)%N then
    String (byte (192 + N.shiftr cp 6))
      (String (byte (128 + N.land cp 63)) EmptyString)
  else if (cp <? 65536)%N then
    String (byte (224 + N.shiftr cp 12))
      (String (byte (128 + N.land (N.shiftr cp 6) 63))
         (String (byte (128 + N.land cp 63)) EmptyString))
  else
    String (byte (240 + N.shiftr cp 18))
      (String (byte (128 + N.land (N.shiftr cp 12) 63))
         (String (byte (128 + N.land (N.shiftr cp 6) 63))
            (String (byte (128 + N.land cp 63)) EmptyString))).

Definition is_high (cu : N) : bool := (55296 <=? cu)%N && (cu <=? 56319)%N.
Definition is_low (cu : N) : bool := (56320 <=? cu)%N && (cu <=? 57343)%N.

Fixpoint decode (us : list unit_) : string :=
  match us with
  | [] => EmptyString
  | Raw c :: r => String c (decode r)
  | Esc hi :: r =>
      match r with
      | Esc lo :: r' =>
          if is_high hi && is_low lo
          then utf8 (65536 + (hi - 55296) * 1024 + (lo - 56320)) ++ decode r'
          else utf8 hi ++ decode r
      | _ => utf8 hi ++ decode r
      end
  end.

(** The character after a backslash, [u] apart. *)
Definition escape (c : ascii) : option ascii :=
  if Ascii.eqb c Js.dquote then Some Js.dquote
  else if Ascii.eqb c "\" then Some "\"%char
  else if Ascii.eqb c "/" then Some "/"%char
  else if Ascii.eqb c "b" then Some "008"%char
  else if Ascii.eqb c "f" then Some "012"%char
  else if Ascii.eqb c "n" then Some "010"%char
  else if Ascii.eqb c "r" then Some "013"%char
  else if Ascii.eqb c "t" then Some "009"%char
  else None.

(** *** The pushdown automaton over tokens *)

Inductive frame : Type :=
| FArr (done : list json)
| FObj (members : list (string * json)) (key : string).

Inductive pstate : Type :=
| SValue (stk : list frame)
| SArrStart (stk : list frame)
| SArrNext (done : list json) (stk : list frame)
| SObjStart (stk : list frame)
| SObjKey (members : list (string * json)) (stk : list frame)
| SObjColon (members : list (string * json)) (key : string) (stk : list frame)
| SObjNext (members : list (string * json)) (stk : list frame)
| SDone (v : json).

(** A value is complete: it goes to the innermost open container. *)
Definition complete (v : json) (stk : list frame) : pstate :=
  match stk with
  | [] => SDone v
  | FArr done :: stk' => SArrNext (v :: done) stk'
  | FObj members key :: stk' => SObjNext (define members key v) stk'
  end.

(** A token where a value is expected. *)
Definition value_token (t : token) (stk : list frame) : option pstate :=
  match t with
  | TLBrace => Some (SObjStart stk)
  | TLBracket => Some (SArrStart stk)
  | TString s => Some (complete (Str s) stk)
  | TNumber n => Some (complete (Number n) stk)
  | TTrue => Some (complete (Bool true) stk)
  | TFalse => Some (complete (Bool false) stk)
  | TNull => Some (complete Null stk)
  | TRBrace | TRBracket | TColon | TComma => None
  end.

Definition pstep (p : pstate) (t : token) : option pstate :=
  match p with
  | SValue stk => value_token t stk
  | SArrStart stk =>
      match t with
      | TRBracket => Some (complete (Array []) stk)
      | _ => value_token t (FArr [] :: stk)
      end
  | SArrNext done stk =>
      match t with
      | TComma => Some (SValue (FArr done :: stk))
      | TRBracket => Some (complete (Array (rev done)) stk)
      | _ => None
      end
  | SObjStart stk =>
      match t with
      | TRBrace => Some (complete (Object []) stk)
      | TString k => Some (SObjColon [] k stk)
      | _ => None
      end
  | SObjKey members stk =>
      match t with
      | TString k => Some (SObjColon members k stk)
      | _ => None
      end
  | SObjColon members k stk =>
      match t with
      | TColon => Some (SValue (FObj members k :: stk))
      | _ => None
      end
  | SObjNext members stk =>
      match t with
      | TComma => Some (SObjKey members stk)
      | TRBrace => Some (complete (Object members) stk)
      | _ => None
      end
  | SDone _ => None
  end.

(** *** The lexer automaton over characters *)

Inductive lstate : Type :=
| LStart
| LWord (rev_chars : list ascii)
| LNum (rev_chars : list ascii)
| LStr (rev_units : list unit_)
| LEsc (rev_units : list unit_)
| LHex (rev_units : list unit_) (read : nat) (acc : N).

Definition emit (t : option token) (p : pstate) : option pstate :=
  match t with
  | Some t => pstep p t
  | None => None
  end.

(** A character between two tokens. *)
Definition lex_start (c : ascii) (p : pstate) : option (lstate * pstate) :=
  if is_ws c then Some (LStart, p)
  else if Ascii.eqb c Js.dquote then Some (LStr [], p)
  else if is_digit c || Ascii.eqb c "-" then Some (LNum [c], p)
  else if is_lower c then Some (LWord [c], p)
  else option_map (pair LStart) (emit (punct c) p).

Definition lex_step (st : lstate * pstate) (c : ascii) : option (lstate * pstate) :=
  let (l, p) := st in
  match l with
  | LStart => lex_start c p
  | LWord w =>
      if is_lower c then Some (LWord (c :: w), p)
      else match emit (word_token (rev w)) p with
           | Some p' => lex_start c p'
           | None => None
           end
  | LNum w =>
      if is_num_char c then Some (LNum (c :: w), p)
      else match emit (number_token (rev w)) p with
           | Some p' => lex_start c p'
           | None => None
           end
  | LStr u =>
      if Ascii.eqb c Js.dquote then
        option_map (pair LStart) (pstep p (TString (decode (rev u))))
      else if Ascii.eqb c "\" then Some (LEsc u, p)
      else if (code c <? 32)%N then None
      else Some (LStr (Raw c :: u), p)
  | LEsc u =>
      if Ascii.eqb c "u" then Some (LHex u 0 0%N, p)
      else match escape c with
           | Some c' => Some (LStr (Raw c' :: u), p)
           | None => None
           end
  | LHex u read acc =>
      match hex_val c with
      | Some d =>
          let acc' := (16 * acc + d)%N in
          if Nat.eqb read 3 then Some (LStr (Esc acc' :: u), p)
          else Some (LHex u (S read) acc', p)
      | None => None
      end
  end.

(** The end of the text closes a pending literal. *)
Definition lex_end (st : lstate * pstate) : option pstate :=
  let (l, p) := st in
  match l with
  | LStart => Some p
  | LWord w => emit (word_token (rev w)) p
  | LNum w => emit (number_token (rev w)) p
  | LStr _ | LEsc _ | LHex _ _ _ => None
  end.

Fixpoint read (s : string) (st : lstate * pstate) : option pstate :=
  match s with
  | EmptyString => lex_end st
  | String c r =>
      match lex_step st c with
      | Some st' => read r st'
      | None => None
      end
  end.

(** [JSON.parse(text)]: the value, or [None] for a [SyntaxError]. *)
Definition parse (text : string) : option json :=
  match read text (LStart, SValue []) with
  | Some (SDone v) => Some v
  | _ => None
  end.

End JSON.

(** ** The types of [../types] *)

Module Role.
(** Modelled from the spec: the declaration of [ChatMessage] in [../types]
    is not among the sources; its role is the enumeration (user, model). *)
Inductive t : Type := user | model.
End Role.

Module ChatMessage.
(** Modelled from the spec: the declaration of [ChatMessage] in [../types]
    is not among the sources; a message is a role and a text. *)
Record t : Type := mk { role : Role.t; text : string }.
End ChatMessage.

(** ** The interface of the model service ([@google/genai]) *)

(** The [Type] enumeration of the library, as far as the source uses it. *)
Module Type_.
Inductive t : Type := STRING | NUMBER | OBJECT | ARRAY.
End Type_.

#[warnings="-register-all"]
Inductive Schema : Type :=
| mkSchema (type : Type_.t) (properties : list (string * Schema))
           (items : option Schema) (required : list string).

Definition required_of (s : Schema) : list string :=
  match s with mkSchema _ _ _ required => required end.

Inductive Part : Type :=
| TextPart (text : string)
| InlineDataPart (data : option string) (mimeType : string).

Module Content.
Record t : Type := mk { role : Role.t; parts : list Part }.
End Content.

(** [contents] is one content without a role ([{ parts }]) or a list of
    contents. *)
Inductive Contents : Type :=
| OfParts (parts : list Part)
| OfList (contents : list Content.t).

Inductive Tool : Type := googleSearch.

Record ThinkingConfig : Type := { thinkingBudget : Z }.

(** The configuration object; a property that is not set is [None]. *)
Record Config : Type := {
  systemInstruction : option string;
  tools : option (list Tool);
  thinkingConfig : option ThinkingConfig;
  responseMimeType : option string;
  responseSchema : option Schema
}.

Definition empty_config : Config :=
  {| systemInstruction := None; tools := None; thinkingConfig := None;
     responseMimeType := None; responseSchema := None |}.

Record GenerateContentParameters : Type := {
  model : string;
  contents : Contents;
  config : Config
}.

Module Web.
Record t : Type := mk { title : option string; uri : option string }.
End Web.

Record GroundingChunk : Type := { web : option Web.t }.
Record GroundingMetadata : Type := { groundingChunks : option (list GroundingChunk) }.
Record Candidate : Type := { groundingMetadata : option GroundingMetadata }.

Module Response.
Record t : Type := mk {
  text : option string;
  candidates : option (list Candidate)
}.
End Response.

(** ** Exceptions and asynchronous calls *)

Inductive exn : Type :=
| SyntaxError
| TypeError
| ServiceFault (reason : string).

Inductive completion (A : Type) : Type :=
| Normal (a : A)
| Thrown (e : exn).
Arguments Normal {A} a.
Arguments Thrown {A} e.

(** [try { return body } catch (e) { return handler(e) }] *)
Definition try_catch {A : Type} (body : completion A) (handler : exn -> A) : A :=
  match body with
  | Normal a => a
  | Thrown e => handler e
  end.

(** The body of an async function that talks to the model service: it
    settles, or it calls [ai.models.generateContent] and goes on with the
    outcome of the call. *)
Inductive async (A : Type) : Type :=
| Resolve (a : A)
| Reject (e : exn)
| GenerateContent (request : GenerateContentParameters)
                  (k : completion Response.t -> async A).
Arguments Resolve {A} a.
Arguments Reject {A} e.
Arguments GenerateContent {A} request k.

(** [const response = await ai.models.generateContent(request); k] outside
    any [try] block: a rejected call rejects the function with the same
    reason. *)
Definition await {A : Type} (request : GenerateContentParameters)
    (k : Response.t -> async A) : async A :=
  GenerateContent request
    (fun outcome =>
       match outcome with
       | Normal response => k response
       | Thrown e => Reject e
       end).

(** A model service answers a request with a response or fails. *)
Definition Service : Type := GenerateContentParameters -> completion Response.t.

Fixpoint run {A : Type} (ai : Service) (m : async A) : completion A :=
  match m with
  | Resolve a => Normal a
  | Reject e => Thrown e
  | GenerateContent request k => run ai (k (ai request))
  end.

(** The requests a body sends, in order. *)
Fixpoint requests {A : Type} (ai : Service) (m : async A)
  : list GenerateContentParameters :=
  match m with
  | Resolve _ | Reject _ => []
  | GenerateContent request k => request :: requests ai (k (ai request))
  end.

(** [JSON.parse(v)] on a value that may be [undefined]. *)
Definition JSON_parse (v : option string) : completion JSON.json :=
  match JSON.parse (Js.ToString v) with
  | Some j => Normal j
  | None => Thrown SyntaxError
  end.

(** [a?.f]: [undefined] when [a] is. *)
Definition opt_chain {A B : Type} (a : option A) (f : A -> option B) : option B :=
  match a with
  | Some x => f x
  | None => None
  end.

(** [a.map(f)] with a callback that may throw. *)
Fixpoint map_throwing {A B : Type} (f : A -> completion B) (l : list A)
  : completion (list B) :=
  match l with
  | [] => Normal []
  | x :: r =>
      match f x with
      | Thrown e => Thrown e
      | Normal y =>
          match map_throwing f r with
          | Thrown e => Thrown e
          | Normal ys => Normal (y :: ys)
          end
      end
  end.

(** ** [analyzeThreatContent] *)

Definition flash_model : string := "gemini-3-flash-preview".

(** The template literal of the prompt, with [text] between double quotes. *)
Definition prompt (text : string) : string :=
  ("Act as a Senior Cyber-Forensics Lead. Analyze the following artifact for social engineering markers: "
  ++ Js.q text
  ++ Js.lines [
    ".";
    "";
    "  AUDIT SCOPE:";
    "  1. ADVANCED EVASION: Check for character substitution, hidden subdomains, or redirection loops.";
    "  2. PSYCHOLOGICAL VECTORS: Identify triggers like Urgency, Fear, Authority, or Social Proof.";
    "  3. TECHNICAL RISK: Evaluate the likely payload (Credential harvesting, malware delivery, or data scraping).";
    "";
    "  OUTPUT PROTOCOL (JSON ONLY):";
    "  - status: 'Safe' | 'Suspicious' | 'Dangerous'";
    "  - riskLevel: 0-100 (Integer)";
    "  - reasoning: High-level professional technical summary of the findings.";
    "  - suggestedActions: Tactical list of defensive protocols for the user.";
    "  - detectedIndicators: Technical terminology of artifacts found."
  ])%string.

(** [parts]: the prompt, then the image when [imageData] is truthy. *)
Definition parts (text : string) (imageData : option string) : list Part :=
  let parts := [TextPart (prompt text)] in
  if Js.truthy imageData then
    match imageData with
    | Some s =>
        parts ++ [InlineDataPart (Js.index (Js.split "," s) 1) "image/jpeg"]
    | None => parts
    end
  else parts.

Definition string_schema : Schema := mkSchema Type_.STRING [] None [].
Definition number_schema : Schema := mkSchema Type_.NUMBER [] None [].
Definition strings_schema : Schema :=
  mkSchema Type_.ARRAY [] (Some string_schema) [].

Definition analysis_schema : Schema :=
  mkSchema Type_.OBJECT
    [ ("status", string_schema);
      ("riskLevel", number_schema);
      ("reasoning", string_schema);
      ("suggestedActions", strings_schema);
      ("detectedIndicators", strings_schema) ]
    None
    ["status"; "riskLevel"; "reasoning"; "suggestedActions"; "detectedIndicators"].

Definition analysis_request (text : string) (imageData : option string)
  : GenerateContentParameters :=
  {| model := flash_model;
     contents := OfParts (parts text imageData);
     config := {| systemInstruction := None;
                  tools := None;
                  thinkingConfig := None;
                  responseMimeType := Some "application/json";
                  responseSchema := Some analysis_schema |} |}.

(** The object of the [catch] block. *)
Definition fallback : JSON.json :=
  JSON.Object
    [ ("status", JSON.Str "Suspicious");
      ("riskLevel", JSON.int 50);
      ("reasoning", JSON.Str "Forensic parser anomaly. Manual verification required.");
      ("suggestedActions",
        JSON.Array [JSON.Str "Do not click links"; JSON.Str "Verify source identity"]);
      ("detectedIndicators", JSON.Array [JSON.Str "Parser Error"]) ].

(** The result is the parsed value as it is: [as AnalysisResult] is a type
    assertion and leaves no test at run time. *)
Definition analyzeThreatContent (text : string) (imageData : option string)
  : async JSON.json :=
  await (analysis_request text imageData)
    (fun response =>
       Resolve (try_catch (JSON_parse (Response.text response))
                          (fun _ => fallback))).

(** ** [getChatResponse] *)

Inductive ChatMode : Type := lite | search | thinking.

Module Source.
Record t : Type := mk { title : option string; uri : option string }.
End Source.

Module ChatReply.
Record t : Type := mk { text : string; sources : option (list Source.t) }.
End ChatReply.

Definition chat_instruction : string :=
  Js.lines [
    "You are the SAFECLICK Chief Intelligence Mentor. ";
    "";
    "PERSONA: You are a world-class Cyber-Intelligence Analyst and Security Mentor. Your tone is authoritative, analytical, and highly precise, yet intellectually supportive. You do not give generic advice; you provide forensic-grade insights.";
    "";
    "REASONING FRAMEWORK:";
    "For every query, structure your response as follows:";
    "1. **TACTICAL SUMMARY**: A Bottom-Line-Up-Front (BLUF) executive assessment.";
    ("2. **THREAT MECHANICS**: Deep reasoning into the " ++ Js.q "Why" ++ " and "
      ++ Js.q "How"
      ++ ". Explain psychological triggers (Urgency, Authority) and technical vectors (Homograph attacks, MFA fatigue).")%string;
    "3. **TACTICAL HARDENING**: Concrete, step-by-step defensive actions for the user.";
    "4. **LEGAL INTEL**: Relevant Indian laws (IT Act, IPC, DPDP) and 1930 reporting steps where applicable.";
    "";
    "GUIDELINES:";
    "- Use professional terminology (TTPs, Vectors, Payloads, Zero-Trust).";
    "- Use analogies to explain complex topics.";
    "- Maintain a professional, supportive, and trustworthy tone.";
    "- If in 'thinking' (Analyst) mode, simulate an attacker's thought process to provide better defense."
  ].

(** The parameter [mode] with its default. *)
Definition mode_or_default (mode : option ChatMode) : ChatMode :=
  match mode with
  | Some m => m
  | None => lite
  end.

(** The model and the configuration after the chain of tests on [mode]. *)
Definition select (mode : ChatMode) : string * Config :=
  let model := flash_model in
  let config :=
    {| systemInstruction := Some chat_instruction;
       tools := None;
       thinkingConfig := None;
       responseMimeType := None;
       responseSchema := None |} in
  match mode with
  | search =>
      (model,
       {| systemInstruction := systemInstruction config;
          tools := Some [googleSearch];
          thinkingConfig := thinkingConfig config;
          responseMimeType := responseMimeType config;
          responseSchema := responseSchema config |})
  | thinking =>
      ("gemini-3-pro-preview",
       {| systemInstruction := systemInstruction config;
          tools := tools config;
          thinkingConfig := Some {| thinkingBudget := 32768 |};
          responseMimeType := responseMimeType config;
          responseSchema := responseSchema config |})
  | lite => ("gemini-flash-lite-latest", config)
  end.

(** [history.map(m => ({ role: m.role, parts: [{ text: m.text }] }))] *)
Definition to_content (m : ChatMessage.t) : Content.t :=
  {| Content.role := ChatMessage.role m;
     Content.parts := [TextPart (ChatMessage.text m)] |}.

Definition chat_request (history : list ChatMessage.t) (mode : option ChatMode)
  : GenerateContentParameters :=
  let (model, config) := select (mode_or_default mode) in
  {| model := model;
     contents := OfList (map to_content history);
     config := config |}.

(** [chunk => chunk.web]: the test of the filter. *)
Definition has_web (chunk : GroundingChunk) : bool :=
  match web chunk with
  | Some _ => true
  | None => false
  end.

(** [chunk => ({ title: chunk.web.title, uri: chunk.web.uri })]: reading a
    property of [undefined] throws. *)
Definition to_source (chunk : GroundingChunk) : completion Source.t :=
  match web chunk with
  | Some w => Normal {| Source.title := Web.title w; Source.uri := Web.uri w |}
  | None => Thrown TypeError
  end.

(** [response.candidates?.[0]?.groundingMetadata?.groundingChunks] *)
Definition chunks_of (response : Response.t) : option (list GroundingChunk) :=
  opt_chain
    (opt_chain
       (opt_chain (Response.candidates response) (fun cs => Js.index cs 0))
       groundingMetadata)
    groundingChunks.

(** [...?.filter(chunk => chunk.web)?.map(chunk => ...)] *)
Definition sources_of (response : Response.t)
  : completion (option (list Source.t)) :=
  match chunks_of response with
  | None => Normal None
  | Some chunks =>
      match map_throwing to_source (filter has_web chunks) with
      | Normal l => Normal (Some l)
      | Thrown e => Thrown e
      end
  end.

Definition placeholder : string := "Communication link lost.".

(** [response.text || placeholder] *)
Definition text_or_placeholder (t : option string) : string :=
  if Js.truthy t then
    match t with
    | Some s => s
    | None => placeholder
    end
  else placeholder.

Definition getChatResponse (history : list ChatMessage.t) (mode : option ChatMode)
  : async ChatReply.t :=
  await (chat_request history mode)
    (fun response =>
       match sources_of response with
       | Thrown e => Reject e
       | Normal sources =>
           Resolve {| ChatReply.text := text_or_placeholder (Response.text response);
                      ChatReply.sources := sources |}
       end).

(** ** Notions the properties are stated with *)

(** The citations of a list of grounding chunks, read off the list from
    left to right: one [{title, uri}] for each chunk that references a web
    source, nothing for the others. *)
Fixpoint citations (chunks : list GroundingChunk) : list Source.t :=
  match chunks with
  | [] => []
  | chunk :: rest =>
      match web chunk with
      | Some w =>
          {| Source.title := Web.title w; Source.uri := Web.uri w |}
            :: citations rest
      | None => citations rest
      end
  end.

(** The grounding chunks of the first candidate, none when a link of the
    chain is missing. *)
Definition grounding_chunks (response : Response.t) : list GroundingChunk :=
  match chunks_of response with
  | Some chunks => chunks
  | None => []
  end.

(** No grounding chunk of the response references a web source. *)
Definition no_web_reference (response : Response.t) : bool :=
  forallb (fun chunk => negb (has_web chunk)) (grounding_chunks response).

(** The required properties of the schema that the value does not have. *)
Definition missing_required (s : Schema) (v : JSON.json) : list string :=
  filter (fun k => match JSON.get v k with Some _ => false | None => true end)
         (required_of s).

(** The value is a number, an integer, between [lo] and [hi]. *)
Definition integer_between (lo hi : Z) (v : option JSON.json) : bool :=
  match v with
  | Some (JSON.Number n) =>
      match JSON.as_integer n with
      | Some z => ((lo <=? z) && (z <=? hi))%Z
      | None => false
      end
  | _ => false
  end.

Definition riskLevel_in_range (result : JSON.json) : bool :=
  integer_between 0 100 (JSON.get result "riskLevel").

(** The text of a response as [JSON.parse] reads it. *)
Definition parsed (response : Response.t) : option JSON.json :=
  JSON.parse (Js.ToString (Response.text response)).

(** *** Sample services and responses *)

Definition answering (response : Response.t) : Service :=
  fun _ => Normal response.

Definition failing (reason : string) : Service :=
  fun _ => Thrown (ServiceFault reason).

Definition text_response (t : string) : Response.t :=
  {| Response.text := Some t; Response.candidates := None |}.

(** A response that carries nothing. *)
Definition empty_response : Response.t :=
  {| Response.text := None; Response.candidates := None |}.

(** A response grounded on the given chunks. *)
Definition grounded_response (t : string) (chunks : list GroundingChunk)
  : Response.t :=
  {| Response.text := Some t;
     Response.candidates :=
       Some [ {| groundingMetadata :=
                   Some {| groundingChunks := Some chunks |} |} ] |}.

(** A chunk that references no web source (a retrieved-context chunk). *)
Definition other_chunk : GroundingChunk := {| web := None |}.

Definition web_chunk (title uri : string) : GroundingChunk :=
  {| web := Some {| Web.title := Some title; Web.uri := Some uri |} |}.

(** Well-formed JSON with a risk level outside the scale. *)
Definition off_scale_text : string :=
  Js.dq "{'status':'Dangerous','riskLevel':150,'reasoning':'r','suggestedActions':[],'detectedIndicators':[]}".

Definition off_scale_result : JSON.json :=
  JSON.Object
    [ ("status", JSON.Str "Dangerous");
      ("riskLevel", JSON.int 150);
      ("reasoning", JSON.Str "r");
      ("suggestedActions", JSON.Array []);
      ("detectedIndicators", JSON.Array []) ].

Definition sample_history : list ChatMessage.t :=
  [ {| ChatMessage.role := Role.user; ChatMessage.text := "Is this link safe?" |};
    {| ChatMessage.role := Role.model; ChatMessage.text := "Send it over." |};
    {| ChatMessage.role := Role.user; ChatMessage.text := "Is this link safe?" |} ].

(** *** Notions for the further properties *)

(** The text is made of JSON white space only (it may be empty). *)
Fixpoint all_ws (s : string) : bool :=
  match s with
  | EmptyString => true
  | String c r => JSON.is_ws c && all_ws r
  end.

(** The characters a JSON value can begin with: an opening brace or
    bracket, a double quote, a minus sign, a digit, or the first letter of
    [true], [false] or [null]. *)
Definition value_start (c : ascii) : bool :=
  Ascii.eqb c "{" || Ascii.eqb c "[" || Ascii.eqb c Js.dquote
  || Ascii.eqb c "-" || JSON.is_digit c
  || Ascii.eqb c "t" || Ascii.eqb c "f" || Ascii.eqb c "n".

(** The value has the shape the schema declares: the declared type, for an
    object every required property and every declared property that is
    present of the shape declared for it, for an array every element of
    the shape of [items]. *)
Fixpoint conforms (s : Schema) (v : JSON.json) {struct s} : bool :=
  match s with
  | mkSchema type properties items required =>
      match type, v with
      | Type_.STRING, JSON.Str _ => true
      | Type_.NUMBER, JSON.Number _ => true
      | Type_.ARRAY, JSON.Array elements =>
          match items with
          | Some item => forallb (conforms item) elements
          | None => true
          end
      | Type_.OBJECT, JSON.Object members =>
          forallb (fun k => match JSON.lookup members k with
                            | Some _ => true
                            | None => false
                            end) required
          && (fix declared (ps : list (string * Schema)) : bool :=
                match ps with
                | [] => true
                | (k, sk) :: rest =>
                    match JSON.lookup members k with
                    | Some vk => conforms sk vk
                    | None => true
                    end && declared rest
                end) properties
      | _, _ => false
      end
  end.

(** [response.candidates?.[0]] *)
Definition first_candidate (response : Response.t) : option Candidate :=
  opt_chain (Response.candidates response) (fun cs => Js.index cs 0).

(** * Properties *)

(** ** The runtime *)

Section SplitFacts.

Variable sep : ascii.

Lemma split_unfold (s : string) :
  Js.split sep s =
  Js.before_first sep s ::
    match Js.after_first sep s with
    | Some r => Js.split sep r
    | None => []
    end.
Proof.
  induction s as [| c r IH]; simpl.
  - reflexivity.
  - destruct (Ascii.eqb c sep); [reflexivity |].
    rewrite IH. reflexivity.
Qed.

Lemma after_first_absent (s : string) :
  Js.occurs sep s = false -> Js.after_first sep s = None.
Proof.
  induction s as [| c r IH]; simpl; [reflexivity |].
  destruct (Ascii.eqb c sep); simpl; [discriminate | exact IH].
Qed.

Lemma before_first_absent (s : string) :
  Js.occurs sep s = false -> Js.before_first sep s = s.
Proof.
  induction s as [| c r IH]; simpl; [reflexivity |].
  destruct (Ascii.eqb c sep); simpl; [discriminate |].
  intros H. rewrite (IH H). reflexivity.
Qed.

(** [s.split(sep)[1]] is the text between the first and the second [sep]. *)
Lemma split_index_1 (s : string) :
  Js.index (Js.split sep s) 1 =
  option_map (Js.before_first sep) (Js.after_first sep s).
Proof.
  rewrite split_unfold. unfold Js.index. simpl.
  destruct (Js.after_first sep s) as [r |]; simpl; [| reflexivity].
  rewrite split_unfold. reflexivity.
Qed.

Lemma split_absent (s : string) :
  Js.occurs sep s = false -> Js.split sep s = [s].
Proof.
  intros H. rewrite split_unfold.
  rewrite (after_first_absent s H), (before_first_absent s H). reflexivity.
Qed.

End SplitFacts.

Section AsyncFacts.

Context {A : Type}.
Variable ai : Service.

Lemma run_await (request : GenerateContentParameters) (k : Response.t -> async A) :
  run ai (await request k) =
  match ai request with
  | Normal response => run ai (k response)
  | Thrown e => Thrown e
  end.
Proof.
  unfold await. simpl. destruct (ai request); reflexivity.
Qed.

Lemma requests_await (request : GenerateContentParameters) (k : Response.t -> async A) :
  requests ai (await request k) =
  request ::
    match ai request with
    | Normal response => requests ai (k response)
    | Thrown _ => []
    end.
Proof.
  unfold await. simpl. destruct (ai request); reflexivity.
Qed.

End AsyncFacts.

(** ** The request of [analyzeThreatContent] *)

(** One call of the service, with the request of the source. *)
Lemma analyze_requests (ai : Service) (text : string) (imageData : option string) :
  requests ai (analyzeThreatContent text imageData) =
  [analysis_request text imageData].
Proof.
  unfold analyzeThreatContent. rewrite requests_await.
  destruct (ai _); reflexivity.
Qed.

Lemma parts_truthy (text s : string) :
  s <> EmptyString ->
  parts text (Some s) =
  [TextPart (prompt text);
   InlineDataPart (option_map (Js.before_first ",") (Js.after_first "," s))
                  "image/jpeg"].
Proof.
  intros N. unfold parts.
  destruct s as [| c r]; [now elim N |].
  cbv [Js.truthy]. rewrite split_index_1. reflexivity.
Qed.

Lemma parts_falsy (text : string) (imageData : option string) :
  Js.truthy imageData = false -> parts text imageData = [TextPart (prompt text)].
Proof.
  intros H. unfold parts. rewrite H. reflexivity.
Qed.

(** C4 as stated fails: between two commas of [imageData] only the text up
    to the second one is sent, not all the text after the first. *)
Lemma image_payload_counterexample :
  requests (answering empty_response)
           (analyzeThreatContent "t" (Some "a,b,c")) =
    [analysis_request "t" (Some "a,b,c")]
  /\ contents (analysis_request "t" (Some "a,b,c")) =
       OfParts [TextPart (prompt "t"); InlineDataPart (Some "b") "image/jpeg"]
  /\ Js.after_first "," "a,b,c" = Some "b,c"
  /\ Some "b" <> Js.after_first "," "a,b,c".
Proof.
  split; [apply analyze_requests |].
  split; [reflexivity |].
  split; [reflexivity |].
  simpl. discriminate.
Qed.

(** C4, amended.  The one request of [analyze] has for parts the prompt
    text and, when [imageData] is a non-empty string, one inline image
    part tagged [image/jpeg] whose data is the second comma-separated
    segment of [imageData]: the text after the first comma up to the next
    comma or the end.  When the text after the first comma holds no other
    comma (as in [data:image/jpeg;base64,XXXX]) the data is exactly that
    text.  When [imageData] is not supplied, or is the empty string, the
    parts are the prompt text alone. *)
Theorem image_part_is_second_segment
    (ai : Service) (text : string) (imageData : option string) :
  requests ai (analyzeThreatContent text imageData) =
    [analysis_request text imageData]
  /\ contents (analysis_request text imageData) = OfParts (parts text imageData)
  /\ (forall s, imageData = Some s -> s <> EmptyString ->
        parts text imageData =
        [TextPart (prompt text);
         InlineDataPart
           (option_map (Js.before_first ",") (Js.after_first "," s))
           "image/jpeg"])
  /\ (forall s payload,
        imageData = Some s ->
        Js.after_first "," s = Some payload ->
        Js.occurs "," payload = false ->
        parts text imageData =
        [TextPart (prompt text); InlineDataPart (Some payload) "image/jpeg"])
  /\ (imageData = None \/ imageData = Some EmptyString ->
        parts text imageData = [TextPart (prompt text)]).
Proof.
  split; [apply analyze_requests |].
  split; [reflexivity |].
  split; [| split].
  - intros s -> N. apply parts_truthy; assumption.
  - intros s payload -> E O.
    assert (N : s <> EmptyString) by (destruct s; [discriminate | discriminate]).
    rewrite (parts_truthy text s N), E. simpl.
    rewrite (before_first_absent _ _ O). reflexivity.
  - intros [-> | ->]; reflexivity.
Qed.

Lemma image_part_is_second_segment_witness :
  parts "t" (Some "data:image/jpeg;base64,QUJD") =
  [TextPart (prompt "t"); InlineDataPart (Some "QUJD") "image/jpeg"].
Proof.
  destruct (image_part_is_second_segment
              (answering empty_response) "t"
              (Some "data:image/jpeg;base64,QUJD")) as (_ & _ & _ & H & _).
  apply (H "data:image/jpeg;base64,QUJD" "QUJD");
    [reflexivity | reflexivity | reflexivity].
Defined.

(** C10.  A non-empty [imageData] without a comma still gets its inline
    image part, whose data is [undefined] and not the string itself; the
    empty string is falsy, so [analyze] does with it what it does without
    [imageData]: no image part. *)
Theorem image_without_comma
    (ai : Service) (text s : string) :
  s <> EmptyString ->
  Js.occurs "," s = false ->
  requests ai (analyzeThreatContent text (Some s)) =
    [analysis_request text (Some s)]
  /\ contents (analysis_request text (Some s)) =
       OfParts [TextPart (prompt text); InlineDataPart None "image/jpeg"]
  /\ InlineDataPart None "image/jpeg" <> InlineDataPart (Some s) "image/jpeg"
  /\ analyzeThreatContent text (Some EmptyString) = analyzeThreatContent text None
  /\ contents (analysis_request text (Some EmptyString)) =
       OfParts [TextPart (prompt text)].
Proof.
  intros N O.
  split; [apply analyze_requests |].
  split.
  - unfold analysis_request. simpl.
    rewrite (parts_truthy text s N), (after_first_absent _ _ O). reflexivity.
  - split; [discriminate |]. split; reflexivity.
Qed.

Lemma image_without_comma_witness :
  contents (analysis_request "t" (Some "QUJD")) =
    OfParts [TextPart (prompt "t"); InlineDataPart None "image/jpeg"].
Proof.
  destruct (image_without_comma (answering empty_response) "t" "QUJD")
    as (_ & H & _).
  - discriminate.
  - reflexivity.
  - exact H.
Defined.

(** ** The result of [analyzeThreatContent] *)

(** What [analyze] settles to, whatever the service does. *)
Lemma analyze_run (ai : Service) (text : string) (imageData : option string) :
  run ai (analyzeThreatContent text imageData) =
  match ai (analysis_request text imageData) with
  | Thrown e => Thrown e
  | Normal response =>
      Normal match parsed response with
             | Some j => j
             | None => fallback
             end
  end.
Proof.
  unfold analyzeThreatContent. rewrite run_await.
  destruct (ai _) as [response | e]; [| reflexivity].
  simpl. unfold JSON_parse, parsed.
  destruct (JSON.parse _); reflexivity.
Qed.

(** The reader rejects the texts an empty response gives: the empty text,
    and [undefined], which [JSON.parse] reads as the word it prints to. *)
Lemma parsed_empty (response : Response.t) :
  Js.truthy (Response.text response) = false -> parsed response = None.
Proof.
  unfold parsed.
  destruct (Response.text response) as [[| c r] |]; simpl;
    [reflexivity | discriminate | reflexivity].
Qed.

Example parse_object :
  JSON.parse (Js.dq " { 'a' : [1, -2.5e3, true, null], 'b' : {'c': 'x\ny'}, 'a' : false } ")
  = Some (JSON.Object
            [ ("a", JSON.Bool false);
              ("b", JSON.Object
                      [("c", JSON.Str (String "x" (String Js.nl "y")))]) ]).
Proof. vm_compute. reflexivity. Qed.

Example parse_rejects :
  map JSON.parse
      [ ""; "undefined"; "{"; "[1,]"; "01"; "1."; "- 1"; "tru"; "nulll";
        "{} {}"; Js.dq "{'a' 1}"; Js.dq "{'a':1,}"; Js.dq "'open"; "NaN" ]
  = repeat None 14.
Proof. vm_compute. reflexivity. Qed.

(** C2 as stated fails: the well-formed text of an empty object has none of
    the properties the schema requires, and comes back as it is. *)
Lemma schema_mismatch_counterexample :
  parsed (text_response "{}") = Some (JSON.Object [])
  /\ missing_required analysis_schema (JSON.Object []) =
       ["status"; "riskLevel"; "reasoning"; "suggestedActions"; "detectedIndicators"]
  /\ run (answering (text_response "{}")) (analyzeThreatContent "hello" None) =
       Normal (JSON.Object [])
  /\ JSON.Object [] <> fallback.
Proof.
  split; [reflexivity |].
  split; [reflexivity |].
  split; [rewrite analyze_run; reflexivity |].
  discriminate.
Qed.

(** C2, amended.  For every response of the service, [analyze] settles
    without an error.  When the text of the response is malformed JSON, or
    the response is empty (no text, or the empty text), the result is the
    fixed fallback.  When the text is well-formed JSON the result is the
    parsed value as it is: nothing compares it with the declared schema. *)
Theorem analyze_recovers_parse_failures
    (ai : Service) (text : string) (imageData : option string)
    (response : Response.t) :
  ai (analysis_request text imageData) = Normal response ->
  exists result,
    run ai (analyzeThreatContent text imageData) = Normal result
    /\ (parsed response = None -> result = fallback)
    /\ (Js.truthy (Response.text response) = false -> result = fallback)
    /\ (forall j, parsed response = Some j -> result = j).
Proof.
  intros H. rewrite analyze_run, H.
  eexists. split; [reflexivity |].
  split; [| split].
  - intros ->. reflexivity.
  - intros E. rewrite (parsed_empty _ E). reflexivity.
  - intros j ->. reflexivity.
Qed.

Lemma analyze_recovers_parse_failures_witness :
  exists result,
    run (answering empty_response) (analyzeThreatContent "hello" None) =
      Normal result
    /\ (parsed empty_response = None -> result = fallback)
    /\ (Js.truthy (Response.text empty_response) = false -> result = fallback)
    /\ (forall j, parsed empty_response = Some j -> result = j).
Proof.
  apply (analyze_recovers_parse_failures
           (answering empty_response) "hello" None empty_response).
  reflexivity.
Defined.

(** C3 as stated fails: a well-formed answer with [riskLevel] 150 is
    returned with that level. *)
Lemma risk_level_counterexample :
  run (answering (text_response off_scale_text))
      (analyzeThreatContent "hello" None) = Normal off_scale_result
  /\ JSON.get off_scale_result "riskLevel" = Some (JSON.int 150)
  /\ riskLevel_in_range off_scale_result = false.
Proof.
  split; [rewrite analyze_run; vm_compute; reflexivity |].
  split; reflexivity.
Qed.

(** C3, amended.  For every text input and every model response,
    [analyze] returns a result; its [riskLevel] is an integer in [0, 100]
    exactly when the text of the response fails to parse (the result is
    then the fallback, of level 50) or parses to a value whose [riskLevel]
    is such an integer.  The input text has no part in it. *)
Theorem risk_level_follows_response
    (ai : Service) (text : string) (imageData : option string)
    (response : Response.t) :
  ai (analysis_request text imageData) = Normal response ->
  exists result,
    run ai (analyzeThreatContent text imageData) = Normal result
    /\ (riskLevel_in_range result = true <->
        parsed response = None
        \/ exists j, parsed response = Some j /\ riskLevel_in_range j = true)
    /\ (parsed response = None -> JSON.get result "riskLevel" = Some (JSON.int 50)).
Proof.
  intros H. rewrite analyze_run, H.
  eexists. split; [reflexivity |].
  destruct (parsed response) as [j |].
  - split.
    + split.
      * intros R. right. exists j. split; [reflexivity | exact R].
      * intros [E | (j' & E & R)]; [discriminate |].
        inversion E; subst. exact R.
    + discriminate.
  - split.
    + split; [intros _; left; reflexivity | intros _; reflexivity].
    + intros _. reflexivity.
Qed.

Lemma risk_level_follows_response_witness :
  exists result,
    run (answering (text_response "not json")) (analyzeThreatContent "" None) =
      Normal result
    /\ (riskLevel_in_range result = true <->
        parsed (text_response "not json") = None
        \/ exists j, parsed (text_response "not json") = Some j
                     /\ riskLevel_in_range j = true)
    /\ (parsed (text_response "not json") = None ->
        JSON.get result "riskLevel" = Some (JSON.int 50)).
Proof.
  apply (risk_level_follows_response
           (answering (text_response "not json")) "" None
           (text_response "not json")).
  reflexivity.
Defined.

(** C5.  When [JSON.parse] throws on the text of the response, [analyze]
    returns exactly the fallback object: status 'Suspicious', riskLevel 50,
    the fixed reasoning, the two fixed actions and the one indicator. *)
Theorem malformed_json_gives_fallback
    (ai : Service) (text : string) (imageData : option string)
    (response : Response.t) :
  ai (analysis_request text imageData) = Normal response ->
  JSON_parse (Response.text response) = Thrown SyntaxError ->
  run ai (analyzeThreatContent text imageData) =
  Normal
    (JSON.Object
       [ ("status", JSON.Str "Suspicious");
         ("riskLevel", JSON.Number {| JSON.mantissa := 50; JSON.exponent := 0 |});
         ("reasoning",
           JSON.Str "Forensic parser anomaly. Manual verification required.");
         ("suggestedActions",
           JSON.Array [JSON.Str "Do not click links";
                       JSON.Str "Verify source identity"]);
         ("detectedIndicators", JSON.Array [JSON.Str "Parser Error"]) ]).
Proof.
  intros H E. rewrite analyze_run, H.
  unfold JSON_parse in E. unfold parsed.
  destruct (JSON.parse _); [discriminate | reflexivity].
Qed.

Lemma malformed_json_gives_fallback_witness :
  run (answering (text_response "{status: Safe"))
      (analyzeThreatContent "hello" None) = Normal fallback.
Proof.
  apply (malformed_json_gives_fallback
           (answering (text_response "{status: Safe")) "hello" None
           (text_response "{status: Safe")).
  - reflexivity.
  - vm_compute. reflexivity.
Defined.

(** C9.  When the call of the model service fails, [analyze] fails with
    the same reason: the call is outside the [try] block, and no fallback
    result takes its place. *)
Theorem service_fault_propagates
    (ai : Service) (text : string) (imageData : option string) (e : exn) :
  ai (analysis_request text imageData) = Thrown e ->
  run ai (analyzeThreatContent text imageData) = Thrown e
  /\ run ai (analyzeThreatContent text imageData) <> Normal fallback.
Proof.
  intros H. rewrite analyze_run, H. split; [reflexivity | discriminate].
Qed.

Lemma service_fault_propagates_witness :
  run (failing "network down") (analyzeThreatContent "hello" None) =
    Thrown (ServiceFault "network down")
  /\ run (failing "network down") (analyzeThreatContent "hello" None) <>
       Normal fallback.
Proof.
  apply (service_fault_propagates (failing "network down") "hello" None).
  reflexivity.
Defined.

(** ** [getChatResponse] *)

Lemma chat_requests (ai : Service) (history : list ChatMessage.t)
    (mode : option ChatMode) :
  requests ai (getChatResponse history mode) = [chat_request history mode].
Proof.
  unfold getChatResponse. rewrite requests_await.
  destruct (ai _) as [response | e]; [| reflexivity].
  destruct (sources_of response); reflexivity.
Qed.

(** After the filter the callback of [map] finds a web reference in every
    chunk: it does not throw, and the two passes give the citations. *)
Lemma map_filter_citations (chunks : list GroundingChunk) :
  map_throwing to_source (filter has_web chunks) = Normal (citations chunks).
Proof.
  induction chunks as [| chunk rest IH]; simpl; [reflexivity |].
  unfold has_web at 1.
  destruct (web chunk) as [w |] eqn:E; simpl.
  - unfold to_source at 1. rewrite E, IH. reflexivity.
  - exact IH.
Qed.

Lemma sources_of_citations (response : Response.t) :
  sources_of response = Normal (option_map citations (chunks_of response)).
Proof.
  unfold sources_of.
  destruct (chunks_of response) as [chunks |]; simpl; [| reflexivity].
  rewrite map_filter_citations. reflexivity.
Qed.

Lemma chat_run (ai : Service) (history : list ChatMessage.t)
    (mode : option ChatMode) :
  run ai (getChatResponse history mode) =
  match ai (chat_request history mode) with
  | Thrown e => Thrown e
  | Normal response =>
      Normal {| ChatReply.text := text_or_placeholder (Response.text response);
                ChatReply.sources := option_map citations (chunks_of response) |}
  end.
Proof.
  unfold getChatResponse. rewrite run_await.
  destruct (ai _) as [response | e]; [| reflexivity].
  rewrite sources_of_citations. reflexivity.
Qed.

(** The citations are those of the web-referencing chunks, in their order. *)
Lemma citations_app (l1 l2 : list GroundingChunk) :
  citations (l1 ++ l2) = citations l1 ++ citations l2.
Proof.
  induction l1 as [| chunk rest IH]; simpl; [reflexivity |].
  destruct (web chunk); simpl; rewrite IH; reflexivity.
Qed.

Lemma citations_length (chunks : list GroundingChunk) :
  length (citations chunks) = length (filter has_web chunks).
Proof.
  induction chunks as [| chunk rest IH]; simpl; [reflexivity |].
  unfold has_web at 1. destruct (web chunk); simpl; rewrite IH; reflexivity.
Qed.

Lemma citations_nil (chunks : list GroundingChunk) :
  citations chunks = [] <->
  forallb (fun chunk => negb (has_web chunk)) chunks = true.
Proof.
  induction chunks as [| chunk rest IH]; simpl; [tauto |].
  unfold has_web at 1. destruct (web chunk); simpl.
  - split; discriminate.
  - exact IH.
Qed.

(** C1 as stated fails: with grounding chunks of which none references a
    web source, [sources] is the empty list, not absent. *)
Lemma sources_counterexample :
  no_web_reference (grounded_response "ok" [other_chunk]) = true
  /\ run (answering (grounded_response "ok" [other_chunk]))
         (getChatResponse sample_history (Some search)) =
       Normal {| ChatReply.text := "ok"; ChatReply.sources := Some [] |}
  /\ Some (@nil Source.t) <> None.
Proof.
  split; [reflexivity |].
  split; [rewrite chat_run; reflexivity | discriminate].
Qed.

(** C1, amended.  For every chat call, [sources] is absent exactly when the
    response has no list of grounding chunks under its first candidate (no
    candidate, no grounding metadata, or no chunk list).  Otherwise it is
    the list of [{title, uri}] of exactly the web-referencing chunks, in
    their original order (each such chunk gives its pair after the pairs
    of the chunks before it and before those of the chunks after it): the
    empty list when no chunk references a web source. *)
Theorem sources_are_web_citations
    (ai : Service) (history : list ChatMessage.t) (mode : option ChatMode)
    (response : Response.t) :
  ai (chat_request history mode) = Normal response ->
  exists reply,
    run ai (getChatResponse history mode) = Normal reply
    /\ (ChatReply.sources reply = None <-> chunks_of response = None)
    /\ (forall chunks, chunks_of response = Some chunks ->
          ChatReply.sources reply = Some (citations chunks)
          /\ length (citations chunks) = length (filter has_web chunks)
          /\ (forall before chunk w after,
                chunks = before ++ chunk :: after ->
                web chunk = Some w ->
                citations chunks =
                citations before
                  ++ {| Source.title := Web.title w; Source.uri := Web.uri w |}
                  :: citations after)
          /\ (no_web_reference response = true ->
              ChatReply.sources reply = Some [])).
Proof.
  intros H. rewrite chat_run, H.
  eexists. split; [reflexivity |]. simpl.
  split.
  - destruct (chunks_of response); simpl; split; congruence.
  - intros chunks E. rewrite E. simpl.
    split; [reflexivity |].
    split; [apply citations_length |].
    split.
    { intros before chunk w after -> W.
      rewrite citations_app. simpl. rewrite W. reflexivity. }
    unfold no_web_reference, grounding_chunks. rewrite E.
    intros N. apply citations_nil in N. rewrite N. reflexivity.
Qed.

Lemma sources_are_web_citations_witness :
  exists reply,
    run (answering
           (grounded_response "ok"
              [web_chunk "A" "https://a.example"; other_chunk;
               web_chunk "B" "https://b.example"]))
        (getChatResponse sample_history (Some search)) = Normal reply
    /\ ChatReply.sources reply =
         Some [ {| Source.title := Some "A"; Source.uri := Some "https://a.example" |};
                {| Source.title := Some "B"; Source.uri := Some "https://b.example" |} ].
Proof.
  destruct (sources_are_web_citations
              (answering
                 (grounded_response "ok"
                    [web_chunk "A" "https://a.example"; other_chunk;
                     web_chunk "B" "https://b.example"]))
              sample_history (Some search)
              (grounded_response "ok"
                 [web_chunk "A" "https://a.example"; other_chunk;
                  web_chunk "B" "https://b.example"]) eq_refl)
    as (reply & R & _ & C).
  exists reply. split; [exact R |].
  destruct (C _ eq_refl) as (S & _). exact S.
Defined.

(** C6.  The request of a chat call by mode.  'lite', also when the mode is
    omitted: the lightweight model, no tools, no thinking configuration.
    'search': the model is left as it starts (the flash model), with the
    [googleSearch] tool.  'thinking': the pro model with a thinking budget
    of 32768, which is not zero.  The system instruction is the same fixed
    text in the three modes. *)
Theorem mode_selects_model_and_config
    (ai : Service) (history : list ChatMessage.t) (mode : option ChatMode) :
  requests ai (getChatResponse history mode) = [chat_request history mode]
  /\ chat_request history None = chat_request history (Some lite)
  /\ (model (chat_request history (Some lite)) = "gemini-flash-lite-latest"
      /\ tools (config (chat_request history (Some lite))) = None
      /\ thinkingConfig (config (chat_request history (Some lite))) = None)
  /\ (model (chat_request history (Some search)) = "gemini-3-flash-preview"
      /\ tools (config (chat_request history (Some search))) = Some [googleSearch])
  /\ (model (chat_request history (Some thinking)) = "gemini-3-pro-preview"
      /\ exists budget,
           thinkingConfig (config (chat_request history (Some thinking))) =
             Some {| thinkingBudget := budget |}
           /\ budget = 32768%Z /\ budget <> 0%Z)
  /\ systemInstruction (config (chat_request history mode)) = Some chat_instruction.
Proof.
  split; [apply chat_requests |].
  split; [reflexivity |].
  split; [repeat split |].
  split; [repeat split |].
  split.
  - split; [reflexivity |].
    exists 32768%Z. repeat split. discriminate.
  - destruct mode as [[| |] |]; reflexivity.
Qed.

(** C7.  The contents of the request are the messages of the history, one
    entry for each, in the same order, each with the role and the text of
    its message. *)
Theorem history_is_forwarded
    (ai : Service) (history : list ChatMessage.t) (mode : option ChatMode) :
  requests ai (getChatResponse history mode) = [chat_request history mode]
  /\ exists entries,
       contents (chat_request history mode) = OfList entries
       /\ length entries = length history
       /\ forall i m,
            nth_error history i = Some m ->
            nth_error entries i =
              Some {| Content.role := ChatMessage.role m;
                      Content.parts := [TextPart (ChatMessage.text m)] |}.
Proof.
  split; [apply chat_requests |].
  exists (map to_content history).
  split.
  - unfold chat_request. destruct (select _). reflexivity.
  - split; [apply length_map |].
    intros i m E. rewrite nth_error_map, E. reflexivity.
Qed.

Lemma history_is_forwarded_witness :
  contents (chat_request sample_history None) =
  OfList
    [ {| Content.role := Role.user; Content.parts := [TextPart "Is this link safe?"] |};
      {| Content.role := Role.model; Content.parts := [TextPart "Send it over."] |};
      {| Content.role := Role.user; Content.parts := [TextPart "Is this link safe?"] |} ].
Proof.
  destruct (history_is_forwarded (answering empty_response) sample_history None)
    as (_ & entries & E & L & N).
  rewrite E. f_equal.
  destruct entries as [| e0 [| e1 [| e2 [| e3 rest]]]]; try discriminate L.
  pose proof (N 0%nat _ eq_refl) as N0.
  pose proof (N 1%nat _ eq_refl) as N1.
  pose proof (N 2%nat _ eq_refl) as N2.
  simpl in N0, N1, N2.
  inversion N0; inversion N1; inversion N2. reflexivity.
Defined.

(** C8.  When the text of the response is falsy (missing or empty) the
    reply carries the placeholder 'Communication link lost.'; otherwise it
    carries the text of the response unchanged.  In both cases the call
    settles with a reply, not an error. *)
Theorem empty_text_gives_placeholder
    (ai : Service) (history : list ChatMessage.t) (mode : option ChatMode)
    (response : Response.t) :
  ai (chat_request history mode) = Normal response ->
  exists reply,
    run ai (getChatResponse history mode) = Normal reply
    /\ (Response.text response = None \/ Response.text response = Some EmptyString ->
        ChatReply.text reply = "Communication link lost.")
    /\ (forall s, Response.text response = Some s -> s <> EmptyString ->
        ChatReply.text reply = s).
Proof.
  intros H. rewrite chat_run, H.
  eexists. split; [reflexivity |]. simpl.
  split.
  - intros [-> | ->]; reflexivity.
  - intros s -> N. destruct s; [now elim N | reflexivity].
Qed.

Lemma empty_text_gives_placeholder_witness :
  exists reply,
    run (answering (text_response "")) (getChatResponse sample_history None) =
      Normal reply
    /\ ChatReply.text reply = "Communication link lost.".
Proof.
  destruct (empty_text_gives_placeholder
              (answering (text_response "")) sample_history None
              (text_response "") eq_refl) as (reply & R & P & _).
  exists reply. split; [exact R |].
  apply P. right. reflexivity.
Defined.

(** * Further properties of the two operations *)

(** ** Strings *)

Section StringFacts.

Local Open Scope string_scope.

Lemma append_assoc_s (a b c : string) : (a ++ b) ++ c = a ++ (b ++ c).
Proof.
  induction a as [| x a IH]; simpl; [reflexivity | now rewrite IH].
Qed.

Lemma append_length (a b : string) :
  String.length (a ++ b) = (String.length a + String.length b)%nat.
Proof.
  induction a as [| x a IH]; simpl; [reflexivity | now rewrite IH].
Qed.

Lemma append_cancel_l (a x y : string) : a ++ x = a ++ y -> x = y.
Proof.
  induction a as [| c a IH]; simpl; intros H; [exact H |].
  inversion H. auto.
Qed.

Lemma append_cancel_r (b x y : string) : x ++ b = y ++ b -> x = y.
Proof.
  revert y. induction x as [| c x IH]; intros [| d y] H; simpl in H.
  - reflexivity.
  - apply (f_equal String.length) in H. simpl in H.
    rewrite append_length in H. lia.
  - apply (f_equal String.length) in H. simpl in H.
    rewrite append_length in H. lia.
  - inversion H. f_equal. auto.
Qed.

Lemma q_injective (x y : string) : Js.q x = Js.q y -> x = y.
Proof.
  unfold Js.q. intros H. inversion H as [E].
  exact (append_cancel_r _ _ _ E).
Qed.

Lemma q_length (x : string) : String.length (Js.q x) = (String.length x + 2)%nat.
Proof.
  unfold Js.q. simpl. rewrite append_length. simpl. lia.
Qed.

Variable sep : ascii.

Lemma occurs_append (a b : string) :
  Js.occurs sep (a ++ b) = Js.occurs sep a || Js.occurs sep b.
Proof.
  induction a as [| c a IH]; simpl; [reflexivity |].
  rewrite IH. apply orb_assoc.
Qed.

Lemma before_first_clean (s : string) :
  Js.occurs sep (Js.before_first sep s) = false.
Proof.
  induction s as [| c r IH]; simpl; [reflexivity |].
  destruct (Ascii.eqb c sep) eqn:E; simpl; [reflexivity |].
  rewrite E. exact IH.
Qed.

(** A text with a separator is what is before the first one, the
    separator, and what is after. *)
Lemma after_first_split (s r : string) :
  Js.after_first sep s = Some r ->
  s = Js.before_first sep s ++ String sep r.
Proof.
  induction s as [| c t IH]; simpl; [discriminate |].
  destruct (Ascii.eqb_spec c sep) as [-> | N].
  - intros H. inversion H. reflexivity.
  - intros H. simpl. f_equal. exact (IH H).
Qed.

Lemma after_first_append (a b : string) :
  Js.occurs sep a = false ->
  Js.after_first sep (a ++ String sep b) = Some b.
Proof.
  induction a as [| c a IH]; simpl.
  - rewrite Ascii.eqb_refl. reflexivity.
  - destruct (Ascii.eqb c sep); simpl; [discriminate | exact IH].
Qed.

Lemma before_first_whole (s : string) :
  Js.after_first sep s = None -> Js.before_first sep s = s.
Proof.
  induction s as [| c t IH]; simpl; [reflexivity |].
  destruct (Ascii.eqb c sep); [discriminate |].
  intros H. f_equal. exact (IH H).
Qed.

(** A text is its first segment alone, or its first segment, a separator
    and more. *)
Lemma before_first_rest (s : string) :
  exists rest,
    s = Js.before_first sep s ++ rest
    /\ (rest = EmptyString \/ exists r, rest = String sep r).
Proof.
  destruct (Js.after_first sep s) as [r |] eqn:E.
  - exists (String sep r). split; [apply after_first_split, E |].
    right. exists r. reflexivity.
  - exists EmptyString. split; [| left; reflexivity].
    rewrite (before_first_whole s E).
    clear E. induction s as [| c t IH]; simpl; [reflexivity |].
    f_equal. exact IH.
Qed.

End StringFacts.

(** ** The prompt of [analyzeThreatContent] *)

Lemma quoted_between (a text b : string) :
  (a ++ (Js.q text ++ b))%string =
  ((a ++ String Js.dquote EmptyString)
     ++ (text ++ String Js.dquote b))%string.
Proof.
  unfold Js.q. rewrite !append_assoc_s. simpl.
  rewrite append_assoc_s. reflexivity.
Qed.

(** X1.  The prompt is the input text, as it is, between a fixed opening
    and a fixed ending: nothing of the text is escaped, cut or dropped.
    The length of the prompt is the length of the text plus a constant, and
    two different texts give two different prompts. *)
Theorem prompt_embeds_text_verbatim :
  (exists opening ending,
     forall text, prompt text = (opening ++ (text ++ ending))%string)
  /\ (forall text,
        String.length (prompt text) =
        (String.length text + String.length (prompt EmptyString))%nat)
  /\ (forall text1 text2, prompt text1 = prompt text2 -> text1 = text2).
Proof.
  split; [| split].
  - do 2 eexists. intros text. unfold prompt. apply quoted_between.
  - intros text. unfold prompt.
    rewrite !append_length, !q_length.
    change (String.length EmptyString) with 0%nat. lia.
  - intros text1 text2 H. unfold prompt in H.
    apply append_cancel_l in H. apply append_cancel_r in H.
    exact (q_injective _ _ H).
Qed.

Lemma prompt_embeds_text_verbatim_witness :
  prompt "safe" <> prompt "unsafe".
Proof.
  destruct prompt_embeds_text_verbatim as (_ & _ & I).
  intros E. apply I in E. discriminate E.
Defined.

(** ** The image part of [analyzeThreatContent] *)

(** X2.  When an image part with a payload is attached, the payload holds
    no comma and is cut out of [imageData]: [imageData] is a text without
    comma, a comma, the payload, and then nothing or a comma and more;
    what follows a second comma is not sent. *)
Theorem image_payload_shape (text s payload : string) :
  parts text (Some s) =
    [TextPart (prompt text); InlineDataPart (Some payload) "image/jpeg"] ->
  Js.occurs "," payload = false
  /\ exists before rest,
       s = (before ++ String "," (payload ++ rest))%string
       /\ Js.occurs "," before = false
       /\ (rest = EmptyString \/ exists r, rest = String "," r).
Proof.
  intros H.
  assert (N : s <> EmptyString).
  { intros ->. rewrite parts_falsy in H by reflexivity. discriminate H. }
  rewrite (parts_truthy text s N) in H.
  inversion H as [E]. clear H.
  destruct (Js.after_first "," s) as [r |] eqn:A; simpl in E;
    [| discriminate E].
  inversion E as [P]. clear E.
  split; [apply before_first_clean |].
  destruct (before_first_rest "," r) as (rest & R & T).
  exists (Js.before_first "," s), rest.
  split; [| split].
  - rewrite <- R. apply after_first_split. exact A.
  - apply before_first_clean.
  - exact T.
Qed.

Lemma image_payload_shape_witness :
  Js.occurs "," "QUJD" = false
  /\ exists before rest,
       "data:image/png;base64,QUJD,more" =
         (before ++ String "," ("QUJD" ++ rest))%string
       /\ Js.occurs "," before = false
       /\ (rest = EmptyString \/ exists r, rest = String "," r).
Proof.
  apply (image_payload_shape "t" "data:image/png;base64,QUJD,more" "QUJD").
  reflexivity.
Defined.

(** X3.  What stands before the first comma of [imageData] has no effect
    on the request: two data URIs with the same text after their first
    comma give the same parts, whatever media type each one declares, and
    the image part is tagged [image/jpeg] in both. *)
Theorem data_uri_prefix_is_ignored (text prefix1 prefix2 rest : string) :
  Js.occurs "," prefix1 = false ->
  Js.occurs "," prefix2 = false ->
  analysis_request text (Some (prefix1 ++ String "," rest)%string) =
  analysis_request text (Some (prefix2 ++ String "," rest)%string)
  /\ parts text (Some (prefix1 ++ String "," rest)%string) =
     [TextPart (prompt text);
      InlineDataPart (Some (Js.before_first "," rest)) "image/jpeg"].
Proof.
  intros O1 O2.
  assert (P : forall p, Js.occurs "," p = false ->
                parts text (Some (p ++ String "," rest)%string) =
                [TextPart (prompt text);
                 InlineDataPart (Some (Js.before_first "," rest)) "image/jpeg"]).
  { intros p O. rewrite parts_truthy by (destruct p; discriminate).
    rewrite (after_first_append "," p rest O). reflexivity. }
  split; [| exact (P prefix1 O1)].
  unfold analysis_request. rewrite (P prefix1 O1), (P prefix2 O2). reflexivity.
Qed.

Lemma data_uri_prefix_is_ignored_witness :
  analysis_request "t" (Some "data:image/png;base64,QUJD") =
  analysis_request "t" (Some "data:image/jpeg;base64,QUJD").
Proof.
  apply (data_uri_prefix_is_ignored "t" "data:image/png;base64"
           "data:image/jpeg;base64" "QUJD");
    reflexivity.
Defined.

(** ** The single call of [analyzeThreatContent] *)

(** X4.  [analyze] calls the model service once, also when the call fails
    (no retry).  It fails exactly when that call fails, with the reason of
    the call, and its outcome depends on the service through the answer to
    that one request only. *)
Theorem analyze_calls_service_once
    (ai : Service) (text : string) (imageData : option string) :
  requests ai (analyzeThreatContent text imageData) =
    [analysis_request text imageData]
  /\ (forall e,
        run ai (analyzeThreatContent text imageData) = Thrown e <->
        ai (analysis_request text imageData) = Thrown e)
  /\ (forall ai' : Service,
        ai' (analysis_request text imageData) =
          ai (analysis_request text imageData) ->
        run ai' (analyzeThreatContent text imageData) =
          run ai (analyzeThreatContent text imageData)).
Proof.
  split; [apply analyze_requests |].
  split.
  - intros e. rewrite analyze_run.
    destruct (ai _) as [response | e']; split; intros H;
      try discriminate H; inversion H; reflexivity.
  - intros ai' H. rewrite !analyze_run, H. reflexivity.
Qed.

Lemma analyze_calls_service_once_witness :
  run (fun _ => Thrown (ServiceFault "quota")) (analyzeThreatContent "t" None) =
  run (failing "quota") (analyzeThreatContent "t" None).
Proof.
  destruct (analyze_calls_service_once (failing "quota") "t" None)
    as (_ & _ & H).
  apply H. reflexivity.
Defined.

(** ** What [JSON.parse] makes of the text of a response *)

Section ReaderFacts.

Local Open Scope string_scope.

Lemma append_nil_r (s : string) : s ++ "" = s.
Proof.
  induction s as [| c s IH]; simpl; [reflexivity | now rewrite IH].
Qed.

Lemma is_ws_cases (c : ascii) :
  JSON.is_ws c = true ->
  c = " "%char \/ c = "009"%char \/ c = "010"%char \/ c = "013"%char.
Proof.
  unfold JSON.is_ws, JSON.code. intros H.
  rewrite <- (ascii_N_embedding c).
  repeat (apply orb_true_iff in H; destruct H as [H | H]);
    apply N.eqb_eq in H; rewrite H; auto.
Qed.

(** White space between two tokens is skipped. *)
Lemma lex_step_ws (c : ascii) (p : JSON.pstate) :
  JSON.is_ws c = true ->
  JSON.lex_step (JSON.LStart, p) c = Some (JSON.LStart, p).
Proof.
  intros H. simpl. unfold JSON.lex_start. rewrite H. reflexivity.
Qed.

Lemma read_ws_leading (ws s : string) (p : JSON.pstate) :
  all_ws ws = true ->
  JSON.read (ws ++ s) (JSON.LStart, p) = JSON.read s (JSON.LStart, p).
Proof.
  induction ws as [| c ws IH]; simpl; [reflexivity |].
  intros H. apply andb_true_iff in H. destruct H as [C W].
  unfold JSON.lex_start. rewrite C. exact (IH W).
Qed.

(** One white space at the end of the text changes nothing: it closes the
    literal that the end of the text would close, and a string left open
    stays open. *)
Lemma read_ws_last (c : ascii) :
  JSON.is_ws c = true ->
  forall s st, JSON.read (s ++ String c "") st = JSON.read s st.
Proof.
  intros C. induction s as [| d s IH]; intros [l p].
  - simpl JSON.read at 2. simpl append.
    destruct (is_ws_cases c C) as [-> | [-> | [-> | ->]]];
      destruct l as [| w | w | u | u | u n a]; simpl;
      try reflexivity;
      try (destruct (JSON.emit _ p); reflexivity).
  - cbn [JSON.read append].
    destruct (JSON.lex_step (l, p) d); [apply IH | reflexivity].
Qed.

Lemma read_ws_trailing (ws : string) :
  all_ws ws = true ->
  forall s st, JSON.read (s ++ ws) st = JSON.read s st.
Proof.
  induction ws as [| c ws IH]; intros H s st.
  - rewrite append_nil_r. reflexivity.
  - simpl in H. apply andb_true_iff in H. destruct H as [C W].
    change (String c ws) with (String c "" ++ ws).
    rewrite <- append_assoc_s, (IH W). apply read_ws_last, C.
Qed.

Lemma parse_ws_around (before t after : string) :
  all_ws before = true -> all_ws after = true ->
  JSON.parse (before ++ (t ++ after)) = JSON.parse t.
Proof.
  intros B A. unfold JSON.parse.
  rewrite (read_ws_leading before _ _ B), (read_ws_trailing after A).
  reflexivity.
Qed.

Lemma parse_ws_only (ws : string) : all_ws ws = true -> JSON.parse ws = None.
Proof.
  intros W. unfold JSON.parse.
  rewrite <- (append_nil_r ws), (read_ws_leading ws "" _ W). reflexivity.
Qed.

(** A word that does not begin like [true], [false] or [null] is no
    literal, however it goes on. *)
Lemma word_token_other (c0 : ascii) (tail : list ascii) :
  Ascii.eqb c0 "t" = false -> Ascii.eqb c0 "f" = false ->
  Ascii.eqb c0 "n" = false ->
  JSON.word_token (c0 :: tail) = None.
Proof.
  intros T F N. unfold JSON.word_token. simpl.
  rewrite T, F, N. reflexivity.
Qed.

Lemma read_word_other (c0 : ascii) :
  Ascii.eqb c0 "t" = false -> Ascii.eqb c0 "f" = false ->
  Ascii.eqb c0 "n" = false ->
  forall rest w tail p,
    rev w = c0 :: tail ->
    JSON.read rest (JSON.LWord w, p) = None.
Proof.
  intros T F N.
  induction rest as [| d rest IH]; intros w tail p R; simpl.
  - rewrite R, (word_token_other c0 tail T F N). reflexivity.
  - destruct (JSON.is_lower d).
    + apply (IH (d :: w) (tail ++ [d])%list). simpl. rewrite R. reflexivity.
    + rewrite R, (word_token_other c0 tail T F N). reflexivity.
Qed.

(** A text that begins with a character no JSON value begins with is
    rejected. *)
Lemma parse_bad_start (c : ascii) (rest : string) :
  JSON.is_ws c = false -> value_start c = false ->
  JSON.read (String c rest) (JSON.LStart, JSON.SValue []) = None.
Proof.
  intros W V. unfold value_start in V.
  repeat (apply orb_false_iff in V; destruct V as [V ?]).
  simpl. unfold JSON.lex_start. rewrite W.
  match goal with H : Ascii.eqb c Js.dquote = false |- _ => rewrite H end.
  match goal with H : JSON.is_digit c = false |- _ => rewrite H end.
  match goal with H : Ascii.eqb c "-" = false |- _ => rewrite H end.
  simpl orb.
  destruct (JSON.is_lower c).
  - apply (read_word_other c) with (tail := @nil ascii); auto.
  - unfold JSON.punct. rewrite V.
    match goal with H : Ascii.eqb c "[" = false |- _ => rewrite H end.
    destruct (Ascii.eqb c "}"); [reflexivity |].
    destruct (Ascii.eqb c "]"); [reflexivity |].
    destruct (Ascii.eqb c ":"); [reflexivity |].
    destruct (Ascii.eqb c ","); reflexivity.
Qed.

End ReaderFacts.

(** ** When [analyzeThreatContent] falls back *)

(** X5.  White space (space, tab, line feed, carriage return) before and
    after the text of the response has no effect on the result: [analyze]
    returns what it returns for the text without it. *)
Theorem surrounding_whitespace_is_ignored
    (ai : Service) (text : string) (imageData : option string)
    (response : Response.t) (before t after : string) :
  ai (analysis_request text imageData) = Normal response ->
  Response.text response = Some (before ++ (t ++ after))%string ->
  all_ws before = true ->
  all_ws after = true ->
  run ai (analyzeThreatContent text imageData) =
  run (answering (text_response t)) (analyzeThreatContent text imageData).
Proof.
  intros H T B A. rewrite !analyze_run, H. unfold answering, parsed.
  rewrite T. simpl Js.ToString.
  rewrite (parse_ws_around before t after B A). reflexivity.
Qed.

Lemma surrounding_whitespace_is_ignored_witness :
  run (answering (text_response (String Js.nl (" {} " ++ String Js.nl ""))))
      (analyzeThreatContent "t" None) =
  run (answering (text_response "{}")) (analyzeThreatContent "t" None).
Proof.
  apply (surrounding_whitespace_is_ignored
           (answering (text_response (String Js.nl (" {} " ++ String Js.nl ""))))
           "t" None
           (text_response (String Js.nl (" {} " ++ String Js.nl "")))
           (String Js.nl " ") "{}" (String " " (String Js.nl "")));
    reflexivity.
Defined.

(** X6.  A response whose text is white space only gives the fallback. *)
Theorem blank_text_gives_fallback
    (ai : Service) (text : string) (imageData : option string)
    (response : Response.t) (ws : string) :
  ai (analysis_request text imageData) = Normal response ->
  Response.text response = Some ws ->
  all_ws ws = true ->
  run ai (analyzeThreatContent text imageData) = Normal fallback.
Proof.
  intros H T W. rewrite analyze_run, H. unfold parsed. rewrite T.
  simpl Js.ToString. rewrite (parse_ws_only ws W). reflexivity.
Qed.

Lemma blank_text_gives_fallback_witness :
  run (answering (text_response (String " " (String Js.nl ""))))
      (analyzeThreatContent "t" None) = Normal fallback.
Proof.
  apply (blank_text_gives_fallback
           (answering (text_response (String " " (String Js.nl ""))))
           "t" None (text_response (String " " (String Js.nl "")))
           (String " " (String Js.nl "")));
    reflexivity.
Defined.

(** X7.  A response whose text, after its leading white space, begins with
    a character that no JSON value begins with (anything but a brace, a
    bracket, a double quote, a minus sign, a digit, or the letters t, f,
    n) gives the fallback, whatever follows: an answer inside a Markdown
    fence, an HTML page, a sentence beginning with a capital. *)
Theorem foreign_start_gives_fallback
    (ai : Service) (text : string) (imageData : option string)
    (response : Response.t) (ws : string) (c : ascii) (rest : string) :
  ai (analysis_request text imageData) = Normal response ->
  Response.text response = Some (ws ++ String c rest)%string ->
  all_ws ws = true ->
  JSON.is_ws c = false ->
  value_start c = false ->
  run ai (analyzeThreatContent text imageData) = Normal fallback.
Proof.
  intros H T W C V. rewrite analyze_run, H. unfold parsed. rewrite T.
  simpl Js.ToString. unfold JSON.parse.
  rewrite (read_ws_leading ws _ _ W), (parse_bad_start c rest C V).
  reflexivity.
Qed.

Lemma foreign_start_gives_fallback_witness :
  run (answering (text_response "```json {} ```"))
      (analyzeThreatContent "t" None) = Normal fallback.
Proof.
  apply (foreign_start_gives_fallback
           (answering (text_response "```json {} ```")) "t" None
           (text_response "```json {} ```") "" "`"%char "``json {} ```");
    reflexivity.
Defined.

(** X8.  The fallback has the shape of the schema that the request
    declares: every required property, each of the declared type.  So a
    result of [analyze] has that shape exactly when the text of the
    response fails to parse or parses to a value of that shape. *)
Theorem fallback_conforms_to_schema
    (ai : Service) (text : string) (imageData : option string)
    (response : Response.t) :
  ai (analysis_request text imageData) = Normal response ->
  responseSchema (config (analysis_request text imageData)) = Some analysis_schema
  /\ conforms analysis_schema fallback = true
  /\ missing_required analysis_schema fallback = []
  /\ exists result,
       run ai (analyzeThreatContent text imageData) = Normal result
       /\ (conforms analysis_schema result = true <->
           parsed response = None
           \/ exists j, parsed response = Some j
                        /\ conforms analysis_schema j = true).
Proof.
  intros H.
  split; [reflexivity |].
  split; [vm_compute; reflexivity |].
  split; [vm_compute; reflexivity |].
  rewrite analyze_run, H. eexists. split; [reflexivity |].
  destruct (parsed response) as [j |].
  - split.
    + intros R. right. exists j. split; [reflexivity | exact R].
    + intros [E | (j' & E & R)]; [discriminate |].
      inversion E; subst. exact R.
  - split; [intros _; left; reflexivity |].
    intros _. vm_compute. reflexivity.
Qed.

Lemma fallback_conforms_to_schema_witness :
  conforms analysis_schema fallback = true.
Proof.
  destruct (fallback_conforms_to_schema
              (answering empty_response) "t" None empty_response eq_refl)
    as (_ & C & _).
  exact C.
Defined.

(** ** More on [getChatResponse] *)

(** X9.  [chat] calls the model service once, also when the call fails (no
    retry).  It fails exactly when that call fails, with the reason of the
    call: no response makes it throw.  Its outcome depends on the service
    through the answer to that one request only. *)
Theorem chat_calls_service_once
    (ai : Service) (history : list ChatMessage.t) (mode : option ChatMode) :
  requests ai (getChatResponse history mode) = [chat_request history mode]
  /\ (forall e,
        run ai (getChatResponse history mode) = Thrown e <->
        ai (chat_request history mode) = Thrown e)
  /\ (forall ai' : Service,
        ai' (chat_request history mode) = ai (chat_request history mode) ->
        run ai' (getChatResponse history mode) =
          run ai (getChatResponse history mode)).
Proof.
  split; [apply chat_requests |].
  split.
  - intros e. rewrite chat_run.
    destruct (ai _) as [response | e']; split; intros H;
      try discriminate H; inversion H; reflexivity.
  - intros ai' H. rewrite !chat_run, H. reflexivity.
Qed.

Lemma chat_calls_service_once_witness :
  run (failing "offline") (getChatResponse sample_history (Some thinking)) =
  Thrown (ServiceFault "offline").
Proof.
  destruct (chat_calls_service_once (failing "offline") sample_history
              (Some thinking)) as (_ & H & _).
  apply H. reflexivity.
Defined.

(** X10.  The reply is made from the response alone: the same response
    gives the same reply for any history and any mode.  In particular the
    sources are read off the response in every mode, not in 'search' mode
    only. *)
Theorem reply_depends_on_response_only
    (ai1 ai2 : Service) (history1 history2 : list ChatMessage.t)
    (mode1 mode2 : option ChatMode) (response : Response.t) :
  ai1 (chat_request history1 mode1) = Normal response ->
  ai2 (chat_request history2 mode2) = Normal response ->
  run ai1 (getChatResponse history1 mode1) =
  run ai2 (getChatResponse history2 mode2).
Proof.
  intros H1 H2. rewrite !chat_run, H1, H2. reflexivity.
Qed.

Lemma reply_depends_on_response_only_witness :
  run (answering (grounded_response "ok" [web_chunk "A" "https://a.example"]))
      (getChatResponse [] (Some lite)) =
  run (answering (grounded_response "ok" [web_chunk "A" "https://a.example"]))
      (getChatResponse sample_history (Some search)).
Proof.
  apply (reply_depends_on_response_only _ _ [] sample_history
           (Some lite) (Some search)
           (grounded_response "ok" [web_chunk "A" "https://a.example"]));
    reflexivity.
Defined.

(** X11.  The text of a reply is never the empty string. *)
Theorem reply_text_is_never_empty
    (ai : Service) (history : list ChatMessage.t) (mode : option ChatMode)
    (reply : ChatReply.t) :
  run ai (getChatResponse history mode) = Normal reply ->
  ChatReply.text reply <> EmptyString.
Proof.
  rewrite chat_run.
  destruct (ai _) as [response | e]; [| discriminate].
  intros H. inversion H as [R]. simpl.
  destruct (Response.text response) as [[| c s] |]; discriminate.
Qed.

Lemma reply_text_is_never_empty_witness :
  ChatReply.text {| ChatReply.text := placeholder; ChatReply.sources := None |}
  <> EmptyString.
Proof.
  apply (reply_text_is_never_empty (answering (text_response ""))
           sample_history None).
  reflexivity.
Defined.

Lemma to_content_injective (m1 m2 : ChatMessage.t) :
  to_content m1 = to_content m2 -> m1 = m2.
Proof.
  destruct m1 as [r1 t1], m2 as [r2 t2]. unfold to_content. simpl.
  intros H. inversion H. reflexivity.
Qed.

Lemma map_to_content_injective (h1 h2 : list ChatMessage.t) :
  map to_content h1 = map to_content h2 -> h1 = h2.
Proof.
  revert h2. induction h1 as [| m1 h1 IH]; intros [| m2 h2] H;
    simpl in H; try discriminate H; [reflexivity |].
  assert (E1 : to_content m1 = to_content m2) by congruence.
  assert (E2 : map to_content h1 = map to_content h2) by congruence.
  rewrite (to_content_injective _ _ E1), (IH _ E2). reflexivity.
Qed.

Lemma chat_contents (history : list ChatMessage.t) (mode : option ChatMode) :
  contents (chat_request history mode) = OfList (map to_content history).
Proof.
  unfold chat_request. destruct (select _). reflexivity.
Qed.

(** X12.  The history can be read back from the contents of the request:
    two histories that give the same contents are the same history,
    whatever the modes.  An empty history is sent as it is: the call is
    made with no content. *)
Theorem history_is_recoverable
    (history1 history2 : list ChatMessage.t) (mode1 mode2 : option ChatMode) :
  (contents (chat_request history1 mode1) =
     contents (chat_request history2 mode2) ->
   history1 = history2)
  /\ (forall ai : Service,
        requests ai (getChatResponse [] mode1) = [chat_request [] mode1])
  /\ contents (chat_request [] mode1) = OfList [].
Proof.
  split; [| split].
  - rewrite !chat_contents. intros H. inversion H as [E].
    exact (map_to_content_injective _ _ E).
  - intros ai. apply chat_requests.
  - apply chat_contents.
Qed.

Lemma history_is_recoverable_witness :
  contents (chat_request sample_history (Some lite)) <>
  contents (chat_request (tl sample_history) (Some search)).
Proof.
  destruct (history_is_recoverable sample_history (tl sample_history)
              (Some lite) (Some search)) as (H & _).
  intros E. apply H in E. discriminate E.
Defined.

(** X13.  The tool list is set in 'search' mode and in no other, the
    thinking configuration in 'thinking' mode and in no other, so the two
    are never set together; a chat request asks for no response MIME type
    and no response schema.  The three modes have three different models:
    the model of a request tells its mode. *)
Theorem mode_settings_are_exclusive
    (history1 history2 : list ChatMessage.t) (mode1 mode2 : option ChatMode) :
  (tools (config (chat_request history1 mode1)) <> None <->
     mode_or_default mode1 = search)
  /\ (thinkingConfig (config (chat_request history1 mode1)) <> None <->
        mode_or_default mode1 = thinking)
  /\ (tools (config (chat_request history1 mode1)) = None
      \/ thinkingConfig (config (chat_request history1 mode1)) = None)
  /\ responseMimeType (config (chat_request history1 mode1)) = None
  /\ responseSchema (config (chat_request history1 mode1)) = None
  /\ (model (chat_request history1 mode1) = model (chat_request history2 mode2) ->
      mode_or_default mode1 = mode_or_default mode2).
Proof.
  destruct mode1 as [[| |] |], mode2 as [[| |] |]; simpl;
    repeat split; intros; try congruence; try discriminate;
    try (left; reflexivity); try (right; reflexivity).
Qed.

Lemma mode_settings_are_exclusive_witness :
  mode_or_default None = mode_or_default (Some lite).
Proof.
  destruct (mode_settings_are_exclusive [] sample_history None (Some lite))
    as (_ & _ & _ & _ & _ & H).
  apply H. reflexivity.
Defined.

(** ** More on the sources *)

Lemma chunks_of_first_candidate (response : Response.t) :
  chunks_of response =
  opt_chain (opt_chain (first_candidate response) groundingMetadata)
            groundingChunks.
Proof. reflexivity. Qed.

(** X14.  Only the first candidate of a response counts: two responses
    with the same text and the same first candidate give the same reply,
    whatever their other candidates carry; a response without candidates,
    or with an empty list of candidates, gives no sources. *)
Theorem only_first_candidate_counts
    (ai1 ai2 : Service) (history : list ChatMessage.t) (mode : option ChatMode)
    (response1 response2 : Response.t) :
  ai1 (chat_request history mode) = Normal response1 ->
  ai2 (chat_request history mode) = Normal response2 ->
  Response.text response1 = Response.text response2 ->
  first_candidate response1 = first_candidate response2 ->
  run ai1 (getChatResponse history mode) = run ai2 (getChatResponse history mode)
  /\ (first_candidate response1 = None ->
      run ai1 (getChatResponse history mode) =
      Normal {| ChatReply.text := text_or_placeholder (Response.text response1);
                ChatReply.sources := None |}).
Proof.
  intros H1 H2 T C. rewrite !chat_run, H1, H2.
  rewrite !chunks_of_first_candidate, <- C, T.
  split; [reflexivity |].
  intros N. rewrite N. reflexivity.
Qed.

Lemma only_first_candidate_counts_witness :
  run (answering
         {| Response.text := Some "ok";
            Response.candidates :=
              Some [ {| groundingMetadata := None |};
                     {| groundingMetadata :=
                          Some {| groundingChunks :=
                                    Some [web_chunk "A" "https://a.example"] |} |} ] |})
      (getChatResponse sample_history (Some search)) =
  run (answering
         {| Response.text := Some "ok";
            Response.candidates := Some [ {| groundingMetadata := None |} ] |})
      (getChatResponse sample_history (Some search)).
Proof.
  refine (proj1 (only_first_candidate_counts
                   (answering _) (answering _) sample_history (Some search)
                   _ _ eq_refl eq_refl eq_refl eq_refl)).
Defined.

Lemma citations_In (chunks : list GroundingChunk) (source : Source.t) :
  In source (citations chunks) <->
  exists chunk w,
    In chunk chunks /\ web chunk = Some w
    /\ source = {| Source.title := Web.title w; Source.uri := Web.uri w |}.
Proof.
  induction chunks as [| chunk rest IH]; simpl.
  - split; [tauto | intros (c & w & [] & _)].
  - destruct (web chunk) as [w |] eqn:W; simpl; rewrite IH; split.
    + intros [E | (c & w' & I & R)].
      * exists chunk, w. auto.
      * exists c, w'. tauto.
    + intros (c & w' & [E | I] & W' & S).
      * subst c. left. congruence.
      * right. exists c, w'. auto.
    + intros (c & w' & I & R). exists c, w'. tauto.
    + intros (c & w' & [E | I] & W' & S).
      * subst c. congruence.
      * exists c, w'. auto.
Qed.

Lemma citations_le (chunks : list GroundingChunk) :
  (length (citations chunks) <= length chunks)%nat.
Proof.
  induction chunks as [| chunk rest IH]; simpl; [lia |].
  destruct (web chunk); simpl; lia.
Qed.

Lemma citations_all (chunks : list GroundingChunk) :
  forallb has_web chunks = true ->
  length (citations chunks) = length chunks.
Proof.
  induction chunks as [| chunk rest IH]; simpl; [reflexivity |].
  unfold has_web at 1. destruct (web chunk); simpl; [| discriminate].
  intros H. rewrite (IH H). reflexivity.
Qed.

(** X15.  When the response has a list of grounding chunks, a pair is
    among the sources exactly when it is the title and the uri of the web
    reference of one of the chunks; there are at most as many sources as
    chunks, and as many when every chunk references a web source.  A
    title or a uri that the web reference does not have is passed on as
    it is, undefined. *)
Theorem sources_come_from_web_chunks
    (ai : Service) (history : list ChatMessage.t) (mode : option ChatMode)
    (response : Response.t) (chunks : list GroundingChunk) :
  ai (chat_request history mode) = Normal response ->
  chunks_of response = Some chunks ->
  exists reply sources,
    run ai (getChatResponse history mode) = Normal reply
    /\ ChatReply.sources reply = Some sources
    /\ (forall source,
          In source sources <->
          exists chunk w,
            In chunk chunks /\ web chunk = Some w
            /\ source = {| Source.title := Web.title w; Source.uri := Web.uri w |})
    /\ (length sources <= length chunks)%nat
    /\ (forallb has_web chunks = true -> length sources = length chunks).
Proof.
  intros H C. rewrite chat_run, H, C. simpl.
  eexists. exists (citations chunks).
  split; [reflexivity |].
  split; [reflexivity |].
  split; [intros source; apply citations_In |].
  split; [apply citations_le | apply citations_all].
Qed.

Lemma sources_come_from_web_chunks_witness :
  exists reply sources,
    run (answering
           (grounded_response "ok"
              [ {| web := Some {| Web.title := None;
                                  Web.uri := Some "https://a.example" |} |};
                other_chunk ]))
        (getChatResponse sample_history (Some search)) = Normal reply
    /\ ChatReply.sources reply = Some sources
    /\ In {| Source.title := None; Source.uri := Some "https://a.example" |}
          sources
    /\ (length sources <= 2)%nat.
Proof.
  destruct (sources_come_from_web_chunks
              (answering
                 (grounded_response "ok"
                    [ {| web := Some {| Web.title := None;
                                        Web.uri := Some "https://a.example" |} |};
                      other_chunk ]))
              sample_history (Some search)
              (grounded_response "ok"
                 [ {| web := Some {| Web.title := None;
                                     Web.uri := Some "https://a.example" |} |};
                   other_chunk ])
              [ {| web := Some {| Web.title := None;
                                  Web.uri := Some "https://a.example" |} |};
                other_chunk ]
              eq_refl eq_refl)
    as (reply & sources & R & S & I & L & _).
  exists reply, sources.
  split; [exact R |]. split; [exact S |]. split; [| exact L].
  apply I.
  exists {| web := Some {| Web.title := None;
                           Web.uri := Some "https://a.example" |} |},
         {| Web.title := None; Web.uri := Some "https://a.example" |}.
  split; [left; reflexivity |]. split; reflexivity.
Defined.
